(** * schoolnt: the scheduled fetch-and-notify bot (main.go)

    A shallow embedding of [main.go]: the flag-based configuration read in
    [init], the HTTP fetch and JSON decode of [fetchData], the role scan of
    [everyone], the date stamp of [getCurrentTimestamp] and the tick handler
    registered with the cron table in [main].

    The Go standard library, discordgo and cron are outside the repository.
    What the handler observes of them in one tick is collected in a record
    [Env]; the two library behaviours the language leaves open (the JSON
    decoder and the float-to-integer conversion of unrepresentable values)
    are variables of the section that holds the handler. *)

From Stdlib Require Import ZArith Lia DecimalString DecimalZ.
From Stdlib Require Import Floats.SpecFloat Strings.Byte Strings.Ascii Strings.String.
From stdpp Require Import base strings gmap list.

Local Open Scope Z_scope.

(** ** Machine numbers *)

Module GoNum.

(** [uint32] values are integers in [0, 2^32). *)
Definition uint32_modulus : Z := 2 ^ 32.

Definition wrap32 (z : Z) : Z := z mod uint32_modulus.

Definition is_uint32 (z : Z) : bool := (0 <=? z) && (z <? uint32_modulus).

(** [float64] is IEEE 754 binary64: the Standard Library's [spec_float]
    at precision 53 and maximal exponent 1024. *)
Definition float64 : Type := spec_float.

Definition float64_valid (f : float64) : bool := valid_binary 53 1024 f.

Definition float64_zero : float64 := S754_zero false.

(** The integer part of a finite float: the fraction is discarded
    (truncation towards zero).  The value of [S754_finite s m e] is
    [(-1)^s * m * 2^e]; a negative [e] shifts the mantissa right. *)
Definition trunc_finite (s : bool) (m : positive) (e : Z) : Z :=
  let mag := Z.shiftl (Z.pos m) e in
  if s then - mag else mag.

Definition float64_trunc (f : float64) : option Z :=
  match f with
  | S754_zero _ => Some 0
  | S754_finite s m e => Some (trunc_finite s m e)
  | S754_infinity _ | S754_nan => None
  end.

(** Rounding to the nearest integer (ties away from zero), only used to
    tell truncation apart from rounding. *)
Definition float64_round (f : float64) : option Z :=
  match f with
  | S754_zero _ => Some 0
  | S754_finite s m e =>
      let mag := Z.shiftl (2 * Z.pos m + 2 ^ (- e)) (e - 1) in
      Some (if e <? 0 then (if s then - mag else mag) else trunc_finite s m e)
  | S754_infinity _ | S754_nan => None
  end.

Section Conversion.

(** Go: "When converting a floating-point number to an integer, the
    fraction is discarded (truncation towards zero)", and "if the
    result type cannot represent the value the conversion succeeds but
    the result value is implementation-dependent".  [unrepresentable]
    is the implementation's choice; whatever it is, the result is a
    [uint32]. *)
Variable unrepresentable : float64 -> Z.

Definition uint32_of_float64 (f : float64) : Z :=
  match float64_trunc f with
  | Some z => if is_uint32 z then z else wrap32 (unrepresentable f)
  | None => wrap32 (unrepresentable f)
  end.

End Conversion.

(** Sample binary64 values (mantissa and exponent of the nearest double). *)
Definition f64_164_9 : float64 := S754_finite false 5801902957448397 (-45).
Definition f64_165_0 : float64 := S754_finite false 5805421394657280 (-45).
Definition f64_200_7 : float64 := S754_finite false 7061503478228582 (-45).
Definition f64_50_2 : float64 := S754_finite false 7065021915437466 (-47).
Definition f64_neg_1_5 : float64 := S754_finite true 6755399441055744 (-52).
Definition f64_2_pow_32 : float64 := S754_finite false 4503599627370496 (-20).

End GoNum.

Import GoNum.

Local Open Scope string_scope.
Local Open Scope list_scope.

(** ** Strings, errors and formatting *)

(** A Go [error] value; [Error] is its message, [errors_New] builds one.
    A possibly-nil [error] is an [option error]. *)
Record error : Type := errors_New { Error : string }.

Definition newline : string := String "010"%char EmptyString.

(** Decimal form of an integer, as [%d] and [strconv] print it. *)
Definition itoa (z : Z) : string := NilZero.string_of_int (Z.to_int z).

Inductive Arg : Type :=
  | ArgString (s : string)
  | ArgError (e : error)
  | ArgUint32 (n : Z).

(** What the verbs [%s] and [%d] print for one operand. *)
Definition verb_s (a : Arg) : string :=
  match a with
  | ArgString s => s
  | ArgError e => Error e
  | ArgUint32 n => "%!s(uint32=" +:+ itoa n +:+ ")"
  end.

Definition verb_d (a : Arg) : string :=
  match a with
  | ArgUint32 n => itoa n
  | ArgString s => "%!d(string=" +:+ s +:+ ")"
  | ArgError e => "%!d(" +:+ "*errors.errorString=&{" +:+ Error e +:+ "})"
  end.

(** [fmt.Sprintf] for the verbs the program uses: literal bytes are copied,
    [%s] and [%d] consume the next operand. *)
Fixpoint Sprintf (format : string) (args : list Arg) : string :=
  match format with
  | EmptyString => EmptyString
  | String "%"%char (String "s"%char rest) =>
      match args with
      | a :: args' => verb_s a +:+ Sprintf rest args'
      | [] => "%!s(MISSING)" +:+ Sprintf rest []
      end
  | String "%"%char (String "d"%char rest) =>
      match args with
      | a :: args' => verb_d a +:+ Sprintf rest args'
      | [] => "%!d(MISSING)" +:+ Sprintf rest []
      end
  | String c rest => String c (Sprintf rest args)
  end.

(** ** Constants of main.go *)

Definition endpoint : string := "https://api.corona-zahlen.org/districts/%s".

Definition key : string := "09676".

Definition timeFmt : string := "02.01.2006".

(** ** The decoded response *)

Record Delta : Type := {
  Delta_Cases : Z;
  Delta_Deaths : Z;
  Delta_Recovered : Z
}.

Record District : Type := {
  AGS : string;
  Name : string;
  County : string;
  Population : Z;
  Cases : Z;
  Deaths : Z;
  CasesPerWeek : Z;
  DeathsPerWeek : Z;
  Recovered : Z;
  WeekIncidence : float64;
  CasesPer100k : float64;
  District_Delta : Delta
}.

Record Meta : Type := {
  Source : string;
  Contact : string;
  Info : string;
  LastUpdate : string;
  LastCheckedForUpdate : string
}.

(** [Data] is a Go map; a nil map reads like the empty one. *)
Record Response : Type := {
  Data : gmap string District;
  Response_Meta : Meta
}.

Definition Delta_zero : Delta :=
  {| Delta_Cases := 0; Delta_Deaths := 0; Delta_Recovered := 0 |}.

Definition District_zero : District :=
  {| AGS := ""; Name := ""; County := ""; Population := 0; Cases := 0;
     Deaths := 0; CasesPerWeek := 0; DeathsPerWeek := 0; Recovered := 0;
     WeekIncidence := float64_zero; CasesPer100k := float64_zero;
     District_Delta := Delta_zero |}.

Definition Meta_zero : Meta :=
  {| Source := ""; Contact := ""; Info := ""; LastUpdate := "";
     LastCheckedForUpdate := "" |}.

(** [&Response{}] *)
Definition Response_zero : Response :=
  {| Data := ∅; Response_Meta := Meta_zero |}.

(** [m[k]] on a Go map: the zero value when the key is absent. *)
Definition map_index (m : gmap string District) (k : string) : District :=
  default District_zero (m !! k).

(** ** Configuration *)

Record Config : Type := {
  Timer : string;
  Token : string;
  ChannelID : string
}.

Definition Config_zero : Config :=
  {| Timer := ""; Token := ""; ChannelID := "" |}.

(** ** The process state and the monad of Go statements *)

(** A registered command-line flag of type string: [Value] points to the
    string variable that [flag.String] allocated. *)
Record Flag : Type := {
  Flag_Name : string;
  Usage : string;
  Value : nat;
  DefValue : string
}.

(** What the process writes to the outside: bytes on [os.Stderr] and calls
    of [ChannelMessageSend] (whose result the program discards). *)
Inductive Event : Type :=
  | Stderr (text : string)
  | MessageSend (channelID content : string).

Record Process : Type := {
  os_Args : list string;              (* command line, program name dropped *)
  cells : list string;                (* string variables made by new(string) *)
  CommandLine : gmap string Flag;     (* flag.CommandLine.formal *)
  config : Config;                    (* the package variable *)
  output : list Event                 (* oldest first *)
}.

(** The process as the Go runtime starts it with the given arguments. *)
Definition boot (args : list string) : Process :=
  {| os_Args := args; cells := []; CommandLine := ∅; config := Config_zero;
     output := [] |}.

Inductive Result (A : Type) : Type :=
  | Return (a : A)
  | Panic (msg : string).
Arguments Return {A} a.
Arguments Panic {A} msg.

Definition Go (A : Type) : Type := Process -> Result A * Process.

Definition Go_ret {A} (a : A) : Go A := fun p => (Return a, p).

Definition Go_bind {A B} (f : A -> Go B) (m : Go A) : Go B :=
  fun p =>
    match m p with
    | (Return a, p') => f a p'
    | (Panic msg, p') => (Panic msg, p')
    end.

#[global] Instance Go_MRet : MRet Go := @Go_ret.
#[global] Instance Go_MBind : MBind Go := @Go_bind.

Definition panic {A} (msg : string) : Go A := fun p => (Panic msg, p).

Definition get_config : Go Config := fun p => (Return (config p), p).

Definition set_config (c : Config) : Go unit := fun p =>
  (Return tt,
   {| os_Args := os_Args p; cells := cells p; CommandLine := CommandLine p;
      config := c; output := output p |}).

(** The process after it has written the events [es]. *)
Definition push (es : list Event) (p : Process) : Process :=
  {| os_Args := os_Args p; cells := cells p; CommandLine := CommandLine p;
     config := config p; output := output p ++ es |}.

Definition emit (e : Event) : Go unit := fun p => (Return tt, push [e] p).

(** ** Package flag *)

(** [flag.String(name, value, usage)]: allocates a string variable holding
    [value], registers the flag and returns the pointer.  Registering a
    name twice panics (the program's name, which Go puts in front of the
    message, is left out).  The variable is written again only by
    [flag.Parse], which reads [os.Args]. *)
Definition flag_String (name value usage : string) : Go nat := fun p =>
  match CommandLine p !! name with
  | Some _ => (Panic ("flag redefined: " +:+ name), p)
  | None =>
      let ptr := length (cells p) in
      (Return ptr,
       {| os_Args := os_Args p;
          cells := cells p ++ [value];
          CommandLine :=
            <[name := {| Flag_Name := name; Usage := usage; Value := ptr;
                         DefValue := value |}]> (CommandLine p);
          config := config p;
          output := output p |})
  end.

(** [*ptr] for a pointer to a string variable. *)
Definition deref (ptr : nat) : Go string := fun p =>
  match cells p !! ptr with
  | Some v => (Return v, p)
  | None => (Panic "invalid memory address or nil pointer dereference", p)
  end.

(** ** Package time *)

Record Time : Type := {
  Year : Z;
  Month : Z;
  Day : Z;
  Hour : Z;
  Minute : Z;
  Second : Z;
  Nanosecond : Z
}.

Definition zeros (n : nat) : string := String.concat "" (replicate n "0").

(** [appendInt]: decimal form, padded with leading zeros up to [width],
    a minus sign first for a negative number. *)
Definition appendInt (x : Z) (width : nat) : string :=
  let digits := itoa (Z.abs x) in
  (if (x <? 0)%Z then "-" else "") +:+
  zeros (width - String.length digits)%nat +:+ digits.

(** [Time.Format] for the layout elements that occur in [timeFmt]:
    [2006] the year in four digits, [01] the month and [02] the day in two
    digits; every other byte stands for itself. *)
Fixpoint Format (layout : string) (t : Time) : string :=
  match layout with
  | EmptyString => EmptyString
  | String "2"%char (String "0"%char (String "0"%char (String "6"%char rest))) =>
      appendInt (Year t) 4 +:+ Format rest t
  | String "0"%char (String "1"%char rest) =>
      appendInt (Month t) 2 +:+ Format rest t
  | String "0"%char (String "2"%char rest) =>
      appendInt (Day t) 2 +:+ Format rest t
  | String c rest => String c (Format rest t)
  end.

(** ** Package net/http *)

(** A response as [fetchData] can observe it: the status code and what
    [io.ReadAll] makes of the body. *)
Record HTTPResponse : Type := {
  StatusCode : Z;
  Body : list byte + error
}.

(** [client.Get] for each URL. *)
Record Client : Type := {
  Get : string -> HTTPResponse + error
}.

(** ** Package discordgo *)

Record Role : Type := {
  Role_ID : string;
  Role_Name : string
}.

Record Channel : Type := {
  Channel_ID : string;
  GuildID : string
}.

Record Guild : Type := {
  Guild_ID : string;
  Roles : list Role
}.

Record Session : Type := {
  Session_Channel : string -> Channel + error;
  Session_Guild : string -> Guild + error
}.

(** [Role.Mention] *)
Definition Mention (r : Role) : string :=
  Sprintf "<@&%s>" [ArgString (Role_ID r)].

Definition ChannelMessageSend (channelID content : string) : Go unit :=
  emit (MessageSend channelID content).

Definition Fprintf_Stderr (format : string) (args : list Arg) : Go unit :=
  emit (Stderr (Sprintf format args)).

(** What the outside world answers during one tick. *)
Record World : Type := {
  client : Client;
  discord : Session;
  time_Now : Time
}.

(** ** main.go *)

(** [func init()]: registers the three flags and copies the strings the
    returned pointers hold into [config]. *)
Definition init : Go unit :=
  timer ← flag_String "timer" "0 18 * * *" "Specifies the cron notation";
  token ← flag_String "token" "" "Specifies the Discord bot token";
  channelID ← flag_String "channel" "" "Specifies the Discord channel to use";
  timer_v ← deref timer;
  token_v ← deref token;
  channelID_v ← deref channelID;
  set_config {| Timer := timer_v; Token := token_v; ChannelID := channelID_v |}.

(** The loop of [everyone] over [g.Roles]. *)
Fixpoint everyone_roles (roles : list Role) : string * option error :=
  match roles with
  | [] => ("", Some (errors_New "could not find everyone role, what the fuck"))
  | role :: rest =>
      if String.eqb (Role_Name role) "everyone"
      then (Mention role, None)
      else everyone_roles rest
  end.

(** The body of [everyone], with the [config.ChannelID] it reads given. *)
Definition everyone_in (channelID : string) (discord : Session)
  : string * option error :=
  match Session_Channel discord channelID with
  | inr err => ("", Some err)
  | inl c =>
      match Session_Guild discord (GuildID c) with
      | inr err => ("", Some err)
      | inl g => everyone_roles (Roles g)
      end
  end.

(** [func everyone(discord) (string, error)] *)
Definition everyone (discord : Session) : Go (string * option error) :=
  cfg ← get_config;
  mret (everyone_in (ChannelID cfg) discord).

(** [func getCurrentTimestamp() string], with [time.Now()] given. *)
Definition getCurrentTimestamp (now : Time) : string := Format timeFmt now.

Section Program.

(** [json.Unmarshal(bytes, r)]: the record [r] points to afterwards, and
    the error.  The decoder may have filled part of the record when it
    reports an error. *)
Variable json_Unmarshal : list byte -> Response -> Response * option error.

(** The implementation's answer for [uint32(f)] when the integer part of
    [f] is no [uint32]. *)
Variable unrepresentable : float64 -> Z.

(** [func fetchData(client)], returning a [Response] pointer ([None] for
    nil) and an error ([None] for nil). *)
Definition fetchData (client : Client) : option Response * option error :=
  match Get client (Sprintf endpoint [ArgString key]) with
  | inr err => (None, Some err)
  | inl resp =>
      match Body resp with
      | inr err => (None, Some err)
      | inl bytes =>
          let '(r, err) := json_Unmarshal bytes Response_zero in
          (Some r, err)
      end
  end.

(** [uint32(data.Data[key].WeekIncidence)] *)
Definition incidence_of (data : Response) : Z :=
  uint32_of_float64 unrepresentable (WeekIncidence (map_index (Data data) key)).

(** The function [main] registers with the cron table: one tick. *)
Definition tick (w : World) : Go unit :=
  let '(data, err) := fetchData (client w) in
  match err with
  | Some e =>
      Fprintf_Stderr ("could not fetch COVID data: %s" +:+ newline) [ArgError e]
  | None =>
      let timestamp := getCurrentTimestamp (time_Now w) in
      match data with
      | None => panic "invalid memory address or nil pointer dereference"
      | Some data =>
          let incidence := incidence_of data in
          cfg ← get_config;
          ChannelMessageSend (ChannelID cfg)
            (Sprintf "Inzidenzwert für den %s: **%d**"
               [ArgString timestamp; ArgUint32 incidence]);;
          if (165 <=? incidence)%Z then
            '(mention, _) ← everyone (discord w);
            cfg ← get_config;
            ChannelMessageSend (ChannelID cfg)
              (Sprintf "%s Distanzunterricht, wooow" [ArgString mention])
          else mret tt
      end
  end.

(** The ticks the scheduler fires, one after the other. *)
Fixpoint ticks (ws : list World) : Go unit :=
  match ws with
  | [] => mret tt
  | w :: rest => tick w;; ticks rest
  end.

End Program.

(** ** What a run sent *)

Definition sends (es : list Event) : list (string * string) :=
  omap (fun e => match e with
                 | MessageSend c s => Some (c, s)
                 | Stderr _ => None
                 end) es.

Definition diagnostics (es : list Event) : list string :=
  omap (fun e => match e with
                 | Stderr s => Some s
                 | MessageSend _ _ => None
                 end) es.

(** The events a statement adds when it runs from [p], and whether it
    returns. *)
Definition emitted {A} (m : Go A) (p : Process) : list Event :=
  drop (length (output p)) (output (snd (m p))).

Definition returns {A} (m : Go A) (p : Process) : bool :=
  match fst (m p) with
  | Return _ => true
  | Panic _ => false
  end.

Definition alert_suffix : string := " Distanzunterricht, wooow".

(** The last byte of a string; it tells a status text from an alert. *)
Fixpoint last_byte (s : string) : option ascii :=
  match s with
  | EmptyString => None
  | String c EmptyString => Some c
  | String _ rest => last_byte rest
  end.

(** The text of an alert: some mention token, then the fixed words. *)
Definition is_alert (content : string) : Prop :=
  exists mention, content = mention +:+ alert_suffix.

(** The text of a status message for a timestamp and an indicator. *)
Definition status_text (timestamp : string) (incidence : Z) : string :=
  "Inzidenzwert für den " +:+ timestamp +:+ ": **" +:+ itoa incidence +:+ "**".

(** The events of a tick whose fetch succeeded, for the channel, the
    timestamp, the indicator and the string [everyone] returned. *)
Definition tick_events (ch timestamp : string) (incidence : Z) (mention : string)
  : list Event :=
  MessageSend ch (status_text timestamp incidence) ::
  (if (165 <=? incidence)%Z
   then [MessageSend ch (mention +:+ alert_suffix)] else []).

(** The texts of the messages among some events. *)
Definition message_texts (es : list Event) : list string := map snd (sends es).

Definition alert_sent (es : list Event) : Prop :=
  exists c s, (c, s) ∈ sends es /\ is_alert s.

(** The calendar date of an instant. *)
Definition date (t : Time) : Z * Z * Z := (Year t, Month t, Day t).

(** The three ways [everyone] fails for the channel [ch]. *)
Definition channel_lookup_fails (d : Session) (ch : string) : Prop :=
  exists e, Session_Channel d ch = inr e.

Definition guild_lookup_fails (d : Session) (ch : string) : Prop :=
  exists c e, Session_Channel d ch = inl c /\ Session_Guild d (GuildID c) = inr e.

Definition no_everyone_role (d : Session) (ch : string) : Prop :=
  exists c g, Session_Channel d ch = inl c /\ Session_Guild d (GuildID c) = inl g /\
    forall r, r ∈ Roles g -> Role_Name r <> "everyone".

Definition mention_resolution_fails (d : Session) (ch : string) : Prop :=
  channel_lookup_fails d ch \/ guild_lookup_fails d ch \/ no_everyone_role d ch.

(** ** Startup: the session and the cron table *)

(** The calls [main] makes to discordgo and cron while it starts. *)
Inductive Call : Type :=
  | Call_New (authorization : string)
  | Call_Open
  | Call_AddFunc (spec : string)
  | Call_Start.

(** The session [discordgo.New] returns, labelled with the string it was
    made from. *)
Record SessionPtr : Type := { made_from : string }.

(** What the libraries answer at startup: the error of [discordgo.New] for
    an authorization string, of [Open] for a session and of [AddFunc] for a
    schedule expression ([None] for nil). *)
Record Startup : Type := {
  New_error : string -> option error;
  Open_error : SessionPtr -> option error;
  AddFunc_error : string -> option error
}.

(** [func newDiscordSession(token)], with the calls it makes. *)
Definition newDiscordSession (lib : Startup) (token : string)
  : list Call * (option SessionPtr * option error) :=
  let authorization := "Bot " +:+ token in
  match New_error lib authorization with
  | Some err => ([Call_New authorization], (None, Some err))
  | None =>
      let discord := {| made_from := authorization |} in
      ([Call_New authorization; Call_Open], (Some discord, Open_error lib discord))
  end.

(** [func main()] up to [ctab.Start()], with the calls it makes; the wait
    for a signal that follows is left out.  [panic(err)] carries the
    message of the error. *)
Definition main (lib : Startup) (p : Process) : list Call * Result unit :=
  let '(calls, (discord, err)) := newDiscordSession lib (Token (config p)) in
  match err with
  | Some e => (calls, Panic (Error e))
  | None =>
      match AddFunc_error lib (Timer (config p)) with
      | Some e => (calls ++ [Call_AddFunc (Timer (config p))], Panic (Error e))
      | None => (calls ++ [Call_AddFunc (Timer (config p)); Call_Start], Return tt)
      end
  end.

(** ** Reading a timestamp and comparing a float *)

Definition digit_of (c : ascii) : option Z :=
  let n := Z.of_nat (nat_of_ascii c) in
  if (48 <=? n)%Z && (n <=? 57)%Z then Some (n - 48)%Z else None.

(** The number a string of decimal digits stands for. *)
Fixpoint digits_value (s : string) (acc : Z) : option Z :=
  match s with
  | EmptyString => Some acc
  | String c rest =>
      match digit_of c with
      | Some d => digits_value rest (10 * acc + d)
      | None => None
      end
  end.

(** The date a text of the form DD.MM.YYYY stands for, as year, month, day. *)
Definition read_timestamp (s : string) : option (Z * Z * Z) :=
  match s with
  | String d1 (String d2 (String "."%char (String m1 (String m2
      (String "."%char (String y1 (String y2 (String y3 (String y4 EmptyString))))))))) =>
      match digits_value (String d1 (String d2 EmptyString)) 0,
            digits_value (String m1 (String m2 EmptyString)) 0,
            digits_value (String y1 (String y2 (String y3 (String y4 EmptyString)))) 0 with
      | Some d, Some m, Some y => Some (y, m, d)
      | _, _, _ => None
      end
  | _ => None
  end.

(** A date of the calendar, with a year of at most four digits. *)
Definition calendar_date (t : Time) : Prop :=
  (0 <= Year t <= 9999)%Z /\ (1 <= Month t <= 12)%Z /\ (1 <= Day t <= 31)%Z.

(** [appendInt x width] is [width] digits that read [x]. *)
Definition fits (width : nat) (x : Z) : bool :=
  (String.length (appendInt x width) =? width)%nat &&
  bool_decide (digits_value (appendInt x width) 0 = Some x).

(** [n <= f] for an integer [n] and a finite float [f], decided on the
    mantissa and the exponent. *)
Definition float64_at_least (n : Z) (f : float64) : bool :=
  match f with
  | S754_zero _ => (n <=? 0)%Z
  | S754_finite s m e =>
      let v := if s then Z.neg m else Z.pos m in
      if (e <? 0)%Z then (n * 2 ^ (- e) <=? v)%Z else (n <=? v * 2 ^ e)%Z
  | S754_infinity s => negb s
  | S754_nan => false
  end.

(** ** Sample inputs *)

Module Samples.

Definition dq : string := String "034"%char EmptyString.

(** The body [{"data":{"09676":{"weekIncidence":N}},"meta":{}}] for the
    number literal [lit]. *)
Definition body_text (lit : string) : string :=
  "{" +:+ dq +:+ "data" +:+ dq +:+ ":{" +:+ dq +:+ key +:+ dq +:+ ":{" +:+
  dq +:+ "weekIncidence" +:+ dq +:+ ":" +:+ lit +:+ "}}," +:+
  dq +:+ "meta" +:+ dq +:+ ":{}}".

(** A body with another district only, and an error body. *)
Definition body_other : string :=
  "{" +:+ dq +:+ "data" +:+ dq +:+ ":{" +:+ dq +:+ "09677" +:+ dq +:+ ":{" +:+
  dq +:+ "weekIncidence" +:+ dq +:+ ":300.0}}}".

Definition body_error : string :=
  "{" +:+ dq +:+ "error" +:+ dq +:+ ":" +:+ dq +:+ "internal" +:+ dq +:+ "}".

Definition body_html : string := "<html>Bad Gateway</html>".

Definition district_with (f : float64) : District :=
  {| AGS := ""; Name := ""; County := ""; Population := 0; Cases := 0;
     Deaths := 0; CasesPerWeek := 0; DeathsPerWeek := 0; Recovered := 0;
     WeekIncidence := f; CasesPer100k := float64_zero;
     District_Delta := Delta_zero |}.

Definition response_with (k : string) (f : float64) : Response :=
  {| Data := {[ k := district_with f ]}; Response_Meta := Meta_zero |}.

Definition decoded : list (string * Response) :=
  [ (body_text "200.7", response_with key f64_200_7);
    (body_text "50.2", response_with key f64_50_2);
    (body_text "164.9", response_with key f64_164_9);
    (body_text "165.0", response_with key f64_165_0);
    (body_text "-1.5", response_with key f64_neg_1_5);
    (body_other, response_with "09677" (S754_finite false 5277655813324800 (-44)));
    (body_error, Response_zero);
    ("{}", Response_zero) ].

Fixpoint assoc (k : string) (l : list (string * Response)) : option Response :=
  match l with
  | [] => None
  | (k', v) :: rest => if String.eqb k k' then Some v else assoc k rest
  end.

(** A decoder that knows the bodies above and rejects every other one,
    leaving the record as it was. *)
Definition json_sample (bytes : list byte) (r : Response)
  : Response * option error :=
  match assoc (string_of_list_byte bytes) decoded with
  | Some r' => (r', None)
  | None => (r, Some (errors_New "invalid character '<' looking for beginning of value"))
  end.

(** An implementation that saturates at zero. *)
Definition unrepresentable_sample (f : float64) : Z := 0.

Definition client_with (status : Z) (body : string) : Client :=
  {| Get := fun url =>
       if String.eqb url "https://api.corona-zahlen.org/districts/09676"
       then inl {| StatusCode := status; Body := inl (list_byte_of_string body) |}
       else inr (errors_New "no such host") |}.

Definition client_down : Client :=
  {| Get := fun _ => inr (errors_New "dial tcp: connection refused") |}.

Definition session_with (roles : list Role) : Session :=
  {| Session_Channel := fun id =>
       inl {| Channel_ID := id; GuildID := "guild-1" |};
     Session_Guild := fun id =>
       inl {| Guild_ID := id; Roles := roles |} |}.

Definition role_everyone : Role := {| Role_ID := "4711"; Role_Name := "everyone" |}.
Definition role_admin : Role := {| Role_ID := "1"; Role_Name := "admin" |}.

Definition noon : Time :=
  {| Year := 2021; Month := 4; Day := 7; Hour := 12; Minute := 0;
     Second := 0; Nanosecond := 0 |}.

Definition evening : Time :=
  {| Year := 2021; Month := 4; Day := 7; Hour := 18; Minute := 0;
     Second := 3; Nanosecond := 141592653 |}.

Definition world_with (status : Z) (body : string) (roles : list Role) (now : Time)
  : World :=
  {| client := client_with status body; discord := session_with roles;
     time_Now := now |}.

Definition world_down : World :=
  {| client := client_down; discord := session_with [role_everyone];
     time_Now := evening |}.

Definition world_alert : World :=
  world_with 200 (body_text "165.0") [role_admin; role_everyone] evening.

Definition world_quiet : World :=
  world_with 200 (body_text "164.9") [role_admin; role_everyone] evening.

Definition world_no_role : World :=
  world_with 200 (body_text "165.0") [role_admin] evening.

Definition world_other_district : World :=
  world_with 200 body_other [role_everyone] evening.

Definition world_bad_gateway : World :=
  world_with 502 body_html [role_everyone] evening.

(** Libraries that accept everything, refuse the session, refuse to open
    it, refuse the schedule. *)
Definition lib_ok : Startup :=
  {| New_error := fun _ => None; Open_error := fun _ => None;
     AddFunc_error := fun _ => None |}.

Definition lib_no_open : Startup :=
  {| New_error := fun _ => None;
     Open_error := fun _ => Some (errors_New "websocket: close 4004: Authentication failed.");
     AddFunc_error := fun _ => None |}.

Definition lib_bad_schedule : Startup :=
  {| New_error := fun _ => None; Open_error := fun _ => None;
     AddFunc_error := fun _ => Some (errors_New "expected exactly 5 fields") |}.

(** The process after [init], started with flags on the command line. *)
Definition args_flags : list string :=
  ["-timer"; "0 12 * * *"; "-token"; "secret"; "-channel"; "123"].

Definition started : Process := snd (init (boot args_flags)).

End Samples.

Import Samples.


(** * Properties *)

(** ** Formatting *)


Lemma Sprintf_status (timestamp : string) (incidence : Z) :
  Sprintf "Inzidenzwert für den %s: **%d**"
    [ArgString timestamp; ArgUint32 incidence] = status_text timestamp incidence.
Proof. reflexivity. Qed.

Lemma Sprintf_alert (mention : string) :
  Sprintf "%s Distanzunterricht, wooow" [ArgString mention] = mention +:+ alert_suffix.
Proof. reflexivity. Qed.

Lemma Sprintf_diagnostic (e : error) :
  Sprintf ("could not fetch COVID data: %s" +:+ newline) [ArgError e]
  = "could not fetch COVID data: " +:+ Error e +:+ newline.
Proof. reflexivity. Qed.

Lemma append_empty_r (s : string) : s +:+ EmptyString = s.
Proof.
  induction s as [|c s IH]; [done|].
  change (String c s +:+ EmptyString) with (String c (s +:+ EmptyString)).
  by rewrite IH.
Qed.

Lemma append_nonempty_r (s t : string) : t <> EmptyString -> s +:+ t <> EmptyString.
Proof. destruct s; [trivial | discriminate]. Qed.

Lemma last_byte_app (s t : string) :
  t <> EmptyString -> last_byte (s +:+ t) = last_byte t.
Proof.
  intros Ht. induction s as [|c s IH]; [reflexivity|].
  change (String c s +:+ t) with (String c (s +:+ t)). rewrite <- IH.
  destruct (s +:+ t) eqn:E; [|reflexivity].
  destruct s; simpl in E; [contradiction | discriminate].
Qed.

Lemma last_byte_status (timestamp : string) (incidence : Z) :
  last_byte (status_text timestamp incidence) = Some "*"%char.
Proof.
  unfold status_text.
  rewrite !last_byte_app; [reflexivity | repeat apply append_nonempty_r; discriminate ..].
Qed.

Lemma last_byte_alert (content : string) :
  is_alert content -> last_byte content = Some "w"%char.
Proof.
  intros [mention ->]. rewrite last_byte_app; [reflexivity | discriminate].
Qed.

Lemma status_not_alert (timestamp : string) (incidence : Z) :
  ~ is_alert (status_text timestamp incidence).
Proof.
  intros H. apply last_byte_alert in H.
  rewrite last_byte_status in H. discriminate.
Qed.

Lemma alert_is_alert (mention : string) : is_alert (mention +:+ alert_suffix).
Proof. by exists mention. Qed.

(** ** Running statements *)

Lemma push_push (es fs : list Event) (p : Process) :
  push fs (push es p) = push (es ++ fs) p.
Proof. unfold push; cbn. by rewrite <- app_assoc. Qed.

Lemma emitted_push {A} (m : Go A) (p : Process) (es : list Event) :
  snd (m p) = push es p -> emitted m p = es.
Proof. intros H. unfold emitted. rewrite H. cbn. apply drop_app_length. Qed.

Lemma sends_app (es fs : list Event) : sends (es ++ fs) = sends es ++ sends fs.
Proof. apply omap_app. Qed.

Lemma everyone_run (d : Session) (p : Process) :
  everyone d p = (Return (everyone_in (ChannelID (config p)) d), p).
Proof. reflexivity. Qed.

Lemma everyone_roles_error (roles : list Role) (e : error) :
  snd (everyone_roles roles) = Some e -> fst (everyone_roles roles) = "".
Proof.
  induction roles as [|r roles IH]; cbn; [done|].
  destruct (String.eqb (Role_Name r) "everyone"); [discriminate | exact IH].
Qed.

(** Whenever [everyone] returns an error its string is empty. *)
Lemma everyone_in_error (ch : string) (d : Session) (e : error) :
  snd (everyone_in ch d) = Some e -> fst (everyone_in ch d) = "".
Proof.
  unfold everyone_in.
  destruct (Session_Channel d ch) as [c|]; [|done].
  destruct (Session_Guild d (GuildID c)) as [g|]; [|done].
  apply everyone_roles_error.
Qed.

Lemma everyone_roles_none (roles : list Role) :
  (forall r, r ∈ roles -> Role_Name r <> "everyone") ->
  everyone_roles roles
  = ("", Some (errors_New "could not find everyone role, what the fuck")).
Proof.
  induction roles as [|r roles IH]; intros H; cbn; [done|].
  destruct (String.eqb_spec (Role_Name r) "everyone") as [E|_].
  - exfalso. apply (H r); [left | exact E].
  - apply IH. intros r' Hr'. apply H. by right.
Qed.

(** Each of the three failures makes [everyone] return the empty string
    and an error. *)
Lemma everyone_in_fails (ch : string) (d : Session) :
  mention_resolution_fails d ch ->
  exists e, everyone_in ch d = ("", Some e).
Proof.
  unfold everyone_in.
  intros [[e He] | [(c & e & Hc & Hg) | (c & g & Hc & Hg & Hr)]].
  - rewrite He. eauto.
  - rewrite Hc, Hg. eauto.
  - rewrite Hc, Hg, (everyone_roles_none _ Hr). eauto.
Qed.

Section Tick.

Variable json_Unmarshal : list byte -> Response -> Response * option error.
Variable unrepresentable : float64 -> Z.

Local Abbreviation fetch := (fetchData json_Unmarshal).
Local Abbreviation indicator := (incidence_of unrepresentable).
Local Abbreviation run := (tick json_Unmarshal unrepresentable).

(** [fetchData] never returns a nil record without an error. *)
Lemma fetchData_not_nil_nil (c : Client) : fetch c <> (None, None).
Proof.
  unfold fetchData.
  destruct (Get c _) as [resp|]; [|done].
  destruct (Body resp) as [bytes|]; [|done].
  by destruct (json_Unmarshal bytes Response_zero).
Qed.

Lemma fetchData_success (c : Client) :
  snd (fetch c) = None -> exists data, fetch c = (Some data, None).
Proof.
  intros H. destruct (fetch c) as [[data|] err] eqn:E; cbn in H; subst.
  - eauto.
  - by apply fetchData_not_nil_nil in E.
Qed.

Lemma tick_fetch_error (w : World) (p : Process) (d : option Response) (e : error) :
  fetch (client w) = (d, Some e) ->
  run w p
  = (Return tt,
     push [Stderr ("could not fetch COVID data: " +:+ Error e +:+ newline)] p).
Proof. intros H. unfold tick. rewrite H. reflexivity. Qed.

Lemma tick_fetch_ok (w : World) (p : Process) (data : Response) :
  fetch (client w) = (Some data, None) ->
  run w p
  = (Return tt,
     push (tick_events (ChannelID (config p))
             (getCurrentTimestamp (time_Now w)) (indicator data)
             (fst (everyone_in (ChannelID (config p)) (discord w)))) p).
Proof.
  intros H. unfold tick, tick_events. rewrite H.
  unfold mbind, Go_MBind, Go_bind, get_config, ChannelMessageSend, emit.
  rewrite Sprintf_status.
  destruct (165 <=? indicator data)%Z; [|reflexivity].
  rewrite everyone_run.
  destruct (everyone_in _ _) as [mention err] eqn:E.
  cbn. rewrite push_push. reflexivity.
Qed.

(** A tick reads the configuration and nothing else of the process: what
    it adds does not depend on what was written before. *)
Lemma tick_frame (w : World) (p : Process) (es : list Event) :
  run w (push es p)
  = (fst (run w p), push (emitted (run w) p) (push es p)).
Proof.
  destruct (fetch (client w)) as [[data|] [e|]] eqn:E.
  - rewrite (emitted_push (run w) p _ (f_equal snd (tick_fetch_error w p _ e E))).
    by rewrite !(tick_fetch_error w _ _ e E).
  - rewrite (emitted_push (run w) p _ (f_equal snd (tick_fetch_ok w p _ E))).
    by rewrite !(tick_fetch_ok w _ _ E).
  - rewrite (emitted_push (run w) p _ (f_equal snd (tick_fetch_error w p _ e E))).
    by rewrite !(tick_fetch_error w _ _ e E).
  - by apply fetchData_not_nil_nil in E.
Qed.

Lemma tick_returns (w : World) (p : Process) : returns (run w) p = true.
Proof.
  unfold returns.
  destruct (fetch (client w)) as [[data|] [e|]] eqn:E.
  - by rewrite (tick_fetch_error w _ _ e E).
  - by rewrite (tick_fetch_ok w _ _ E).
  - by rewrite (tick_fetch_error w _ _ e E).
  - by apply fetchData_not_nil_nil in E.
Qed.

Lemma tick_run (w : World) (p : Process) :
  run w p = (Return tt, push (emitted (run w) p) p).
Proof.
  destruct (fetch (client w)) as [[data|] [e|]] eqn:E.
  - rewrite (emitted_push (run w) p _ (f_equal snd (tick_fetch_error w p _ e E))).
    exact (tick_fetch_error w p _ e E).
  - rewrite (emitted_push (run w) p _ (f_equal snd (tick_fetch_ok w p _ E))).
    exact (tick_fetch_ok w p _ E).
  - rewrite (emitted_push (run w) p _ (f_equal snd (tick_fetch_error w p _ e E))).
    exact (tick_fetch_error w p _ e E).
  - by apply fetchData_not_nil_nil in E.
Qed.

(** A schedule of ticks returns, and what it adds does not depend on what
    was written before. *)
Lemma ticks_frame (ws : list World) (p : Process) (es : list Event) :
  ticks json_Unmarshal unrepresentable ws (push es p)
  = (Return tt,
     push (emitted (ticks json_Unmarshal unrepresentable ws) p) (push es p)).
Proof.
  revert p es. induction ws as [|w ws IH]; intros p es.
  - cbn [ticks]. unfold emitted, mret, Go_MRet, Go_ret. cbn [snd].
    rewrite drop_all, push_push, app_nil_r. reflexivity.
  - assert (forall q, ticks json_Unmarshal unrepresentable (w :: ws) q
                      = ticks json_Unmarshal unrepresentable ws
                          (push (emitted (run w) q) q)) as Hstep.
    { intros q. cbn [ticks]. unfold mbind, Go_MBind, Go_bind.
      by rewrite tick_run. }
    rewrite Hstep.
    rewrite (emitted_push (run w) (push es p) (emitted (run w) p))
      by (by rewrite tick_frame).
    rewrite push_push, IH.
    rewrite (emitted_push (ticks json_Unmarshal unrepresentable (w :: ws)) p
               (emitted (run w) p ++ emitted (ticks json_Unmarshal unrepresentable ws) p)).
    + by rewrite !push_push, app_assoc.
    + by rewrite Hstep, IH, push_push.
Qed.

Lemma ticks_cons (w : World) (ws : list World) (p : Process) :
  emitted (ticks json_Unmarshal unrepresentable (w :: ws)) p
  = emitted (run w) p ++ emitted (ticks json_Unmarshal unrepresentable ws) p.
Proof.
  apply emitted_push. cbn [ticks]. unfold mbind, Go_MBind, Go_bind.
  by rewrite tick_run, ticks_frame, push_push.
Qed.

End Tick.

(** ** Numbers and dates *)

(** [float64_trunc] discards the fraction: for a positive float with a
    negative exponent the result [z] satisfies [z <= m * 2^e < z + 1]. *)
Lemma trunc_finite_floor (m : positive) (e : Z) :
  (e < 0)%Z ->
  let z := trunc_finite false m e in
  (z * 2 ^ (- e) <= Z.pos m < (z + 1) * 2 ^ (- e))%Z.
Proof.
  intros He z. subst z. unfold trunc_finite.
  rewrite Z.shiftl_div_pow2 by lia.
  assert (0 < 2 ^ (- e))%Z as Hpos by (apply Z.pow_pos_nonneg; lia).
  pose proof (Z.div_mod (Z.pos m) (2 ^ (- e)) ltac:(lia)) as Hdm.
  pose proof (Z.mod_pos_bound (Z.pos m) (2 ^ (- e)) Hpos) as Hb.
  nia.
Qed.

(** Negation commutes with truncation: the result moves towards zero. *)
Lemma trunc_finite_opp (m : positive) (e : Z) :
  trunc_finite true m e = (- trunc_finite false m e)%Z.
Proof. reflexivity. Qed.

Lemma wrap32_range (z : Z) : (0 <= wrap32 z < 2 ^ 32)%Z.
Proof. unfold wrap32, uint32_modulus. apply Z.mod_pos_bound. lia. Qed.

(** Whatever the implementation does, the conversion yields a [uint32]. *)
Lemma uint32_of_float64_range (unrepresentable : float64 -> Z) (f : float64) :
  (0 <= uint32_of_float64 unrepresentable f < 2 ^ 32)%Z.
Proof.
  unfold uint32_of_float64.
  destruct (float64_trunc f) as [z|]; [|apply wrap32_range].
  destruct (is_uint32 z) eqn:E; [|apply wrap32_range].
  unfold is_uint32, uint32_modulus in E. lia.
Qed.

Lemma uint32_of_float64_exact (unrepresentable : float64 -> Z) (f : float64) (z : Z) :
  float64_trunc f = Some z -> (0 <= z < 2 ^ 32)%Z ->
  uint32_of_float64 unrepresentable f = z.
Proof.
  intros Hf Hz. unfold uint32_of_float64. rewrite Hf.
  replace (is_uint32 z) with true; [done|].
  unfold is_uint32, uint32_modulus. lia.
Qed.

(** The timestamp shows the day, the month and the year, and nothing of
    the time of day. *)
Lemma getCurrentTimestamp_date (t : Time) :
  getCurrentTimestamp t
  = appendInt (Day t) 2 +:+ "." +:+ appendInt (Month t) 2 +:+ "." +:+
    appendInt (Year t) 4.
Proof.
  unfold getCurrentTimestamp, timeFmt. cbn [Format].
  by rewrite append_empty_r.
Qed.

Lemma getCurrentTimestamp_same_date (t1 t2 : Time) :
  date t1 = date t2 -> getCurrentTimestamp t1 = getCurrentTimestamp t2.
Proof.
  unfold date. intros [= Hy Hm Hd].
  by rewrite !getCurrentTimestamp_date, Hy, Hm, Hd.
Qed.

(** ** Startup *)

(** [init] never looks at the command line: whatever the arguments, the
    configuration holds the three defaults. *)
Lemma init_ignores_args (args : list string) :
  returns init (boot args) = true /\
  config (snd (init (boot args)))
  = {| Timer := "0 18 * * *"; Token := ""; ChannelID := "" |} /\
  os_Args (snd (init (boot args))) = args.
Proof. by vm_compute. Qed.

(** ** The tick handler and the fetcher *)

Section Claims.

Variable json_Unmarshal : list byte -> Response -> Response * option error.
Variable unrepresentable : float64 -> Z.

Local Abbreviation fetch := (fetchData json_Unmarshal).
Local Abbreviation indicator := (incidence_of unrepresentable).
Local Abbreviation run := (tick json_Unmarshal unrepresentable).

(** C1: in a tick whose fetch succeeded, an alert message is sent if and
    only if the indicator is at least 165; an indicator of exactly 165
    sends the alert and one of 164 does not. *)
Theorem alert_iff_threshold (w : World) (p : Process) (data : Response) :
  fetch (client w) = (Some data, None) ->
  (alert_sent (emitted (run w) p) <-> (165 <= indicator data)%Z) /\
  (indicator data = 165%Z -> alert_sent (emitted (run w) p)) /\
  (indicator data = 164%Z -> ~ alert_sent (emitted (run w) p)).
Proof.
  intros Hfetch.
  assert (alert_sent (emitted (run w) p) <-> (165 <= indicator data)%Z) as Hiff.
  { rewrite (emitted_push (run w) p _ (f_equal snd (tick_fetch_ok _ _ w p _ Hfetch))).
    unfold tick_events, alert_sent.
    destruct (165 <=? indicator data)%Z eqn:Hcmp; cbn [sends omap app].
    - split; [lia|]. intros _. eexists _, _. split.
      + apply list_elem_of_further, list_elem_of_here.
      + apply alert_is_alert.
    - split; [|lia]. intros (c & s & Hin & Halert).
      apply list_elem_of_singleton in Hin. injection Hin as _ ->.
      by apply status_not_alert in Halert. }
  split; [exact Hiff|]. split; intros Heq.
  - apply Hiff. lia.
  - rewrite Hiff. lia.
Qed.

(** C2 (as amended): when the decoded response contains the key "09676"
    and the integer part of that entry's weekly incidence is a uint32, the
    indicator is that integer part: the fraction is discarded. *)
Theorem indicator_truncates (data : Response) (d : District) (z : Z) :
  Data data !! key = Some d ->
  float64_trunc (WeekIncidence d) = Some z ->
  (0 <= z < 2 ^ 32)%Z ->
  indicator data = z.
Proof.
  intros Hd Hz Hrange. unfold incidence_of, map_index. rewrite Hd. cbn [default].
  by apply uint32_of_float64_exact.
Qed.

(** C3 (as amended): when the indicator is at least 165 and the mention
    cannot be resolved (channel lookup fails, guild lookup fails, or no role
    is named "everyone"), the tick sends the status message and then the
    alert with an empty mention. *)
Theorem failed_mention_still_alerts (w : World) (p : Process) (data : Response) :
  fetch (client w) = (Some data, None) ->
  (165 <= indicator data)%Z ->
  mention_resolution_fails (discord w) (ChannelID (config p)) ->
  sends (emitted (run w) p)
  = [ (ChannelID (config p),
       status_text (getCurrentTimestamp (time_Now w)) (indicator data));
      (ChannelID (config p), alert_suffix) ].
Proof.
  intros Hfetch Hge Hfail.
  rewrite (emitted_push (run w) p _ (f_equal snd (tick_fetch_ok _ _ w p _ Hfetch))).
  destruct (everyone_in_fails _ _ Hfail) as [e ->].
  unfold tick_events. replace (165 <=? indicator data)%Z with true by lia.
  reflexivity.
Qed.

(** C4: a tick whose fetch returns an error writes one diagnostic to the
    error stream, sends no message and leaves the configuration, the flags
    and every other part of the process as they were; the next tick does
    what it would have done without the failed one, and so does every
    later one. *)
Theorem fetch_error_tick (w : World) (p : Process) (d : option Response) (e : error) :
  fetch (client w) = (d, Some e) ->
  returns (run w) p = true /\
  diagnostics (emitted (run w) p)
  = ["could not fetch COVID data: " +:+ Error e +:+ newline] /\
  sends (emitted (run w) p) = [] /\
  config (snd (run w p)) = config p /\
  cells (snd (run w p)) = cells p /\
  CommandLine (snd (run w p)) = CommandLine p /\
  os_Args (snd (run w p)) = os_Args p /\
  (forall w' : World,
     fst (run w' (snd (run w p))) = fst (run w' p) /\
     emitted (run w') (snd (run w p)) = emitted (run w') p) /\
  (forall ws : list World,
     sends (emitted (ticks json_Unmarshal unrepresentable (w :: ws)) p)
     = sends (emitted (ticks json_Unmarshal unrepresentable ws) p)).
Proof.
  intros Hfetch.
  pose proof (tick_fetch_error _ unrepresentable w p d e Hfetch) as Hrun.
  rewrite (emitted_push (run w) p _ (f_equal snd Hrun)).
  unfold returns. rewrite Hrun. cbn [fst snd].
  repeat (split; [reflexivity|]).
  split.
  - intros w'. split.
    + by rewrite tick_frame.
    + apply emitted_push. by rewrite tick_frame.
  - intros ws. rewrite ticks_cons.
    by rewrite (emitted_push (run w) p _ (f_equal snd Hrun)).
Qed.

(** C5: when the decoded response does not contain the key "09676", the
    indicator is zero, the tick returns without writing a diagnostic, and
    the only message it sends is the status message showing 0. *)
Theorem absent_key_zero (w : World) (p : Process) (data : Response) :
  fetch (client w) = (Some data, None) ->
  Data data !! key = None ->
  indicator data = 0%Z /\
  returns (run w) p = true /\
  emitted (run w) p
  = [ MessageSend (ChannelID (config p))
        ("Inzidenzwert für den " +:+ getCurrentTimestamp (time_Now w) +:+ ": **0**") ].
Proof.
  intros Hfetch Habsent.
  assert (indicator data = 0%Z) as Hzero.
  { unfold incidence_of, map_index. rewrite Habsent. reflexivity. }
  split; [exact Hzero|]. split; [apply tick_returns|].
  rewrite (emitted_push (run w) p _ (f_equal snd (tick_fetch_ok _ _ w p _ Hfetch))).
  rewrite Hzero. reflexivity.
Qed.

(** C7: two ticks that fetch the same response body on the same calendar
    date send the same status text, whatever the status codes, the times of
    day, the channels and the earlier output; when [everyone] also yields the
    same string in both, all message texts agree, the alert included. *)
Theorem tick_deterministic (w1 w2 : World) (p1 p2 : Process)
    (status1 status2 : Z) (body : list byte) :
  Get (client w1) (Sprintf endpoint [ArgString key])
  = inl {| StatusCode := status1; Body := inl body |} ->
  Get (client w2) (Sprintf endpoint [ArgString key])
  = inl {| StatusCode := status2; Body := inl body |} ->
  date (time_Now w1) = date (time_Now w2) ->
  take 1 (message_texts (emitted (run w1) p1))
  = take 1 (message_texts (emitted (run w2) p2)) /\
  (fst (everyone_in (ChannelID (config p1)) (discord w1))
   = fst (everyone_in (ChannelID (config p2)) (discord w2)) ->
   message_texts (emitted (run w1) p1) = message_texts (emitted (run w2) p2)).
Proof.
  intros Hget1 Hget2 Hdate.
  assert (fetch (client w1) = fetch (client w2)) as Hsame.
  { unfold fetchData. by rewrite Hget1, Hget2. }
  apply getCurrentTimestamp_same_date in Hdate.
  destruct (fetch (client w2)) as [[data|] [e|]] eqn:E.
  - rewrite (emitted_push (run w1) p1 _ (f_equal snd (tick_fetch_error _ _ w1 p1 _ e Hsame))).
    by rewrite (emitted_push (run w2) p2 _ (f_equal snd (tick_fetch_error _ _ w2 p2 _ e E))).
  - rewrite (emitted_push (run w1) p1 _ (f_equal snd (tick_fetch_ok _ _ w1 p1 _ Hsame))).
    rewrite (emitted_push (run w2) p2 _ (f_equal snd (tick_fetch_ok _ _ w2 p2 _ E))).
    rewrite Hdate. unfold tick_events, message_texts.
    split; [reflexivity|]. intros ->.
    by destruct (165 <=? indicator data)%Z.
  - rewrite (emitted_push (run w1) p1 _ (f_equal snd (tick_fetch_error _ _ w1 p1 _ e Hsame))).
    by rewrite (emitted_push (run w2) p2 _ (f_equal snd (tick_fetch_error _ _ w2 p2 _ e E))).
  - by apply fetchData_not_nil_nil in E.
Qed.

(** C8: [fetchData] does not look at the status code.  Whenever the body
    of the response decodes without error the fetch succeeds with the decoded
    record, for every status code, and any other response with the same body
    gives the same result. *)
Theorem fetchData_ignores_status (c : Client) (status : Z) (bytes : list byte)
    (r : Response) :
  Get c (Sprintf endpoint [ArgString key])
  = inl {| StatusCode := status; Body := inl bytes |} ->
  json_Unmarshal bytes Response_zero = (r, None) ->
  fetch c = (Some r, None) /\
  forall (c' : Client) (status' : Z),
    Get c' (Sprintf endpoint [ArgString key])
    = inl {| StatusCode := status'; Body := inl bytes |} ->
    fetch c' = fetch c.
Proof.
  intros Hget Hdec. unfold fetchData. rewrite Hget. cbn [Body]. rewrite Hdec.
  split; [reflexivity|]. intros c' status' Hget'.
  rewrite Hget'. cbn [Body]. by rewrite Hdec.
Qed.

(** C9: when decoding the body fails, [fetchData] returns a non-nil record
    pointer together with the non-nil error; the record alone does not tell
    that the fetch failed. *)
Theorem fetchData_decode_error (c : Client) (status : Z) (bytes : list byte)
    (r : Response) (e : error) :
  Get c (Sprintf endpoint [ArgString key])
  = inl {| StatusCode := status; Body := inl bytes |} ->
  json_Unmarshal bytes Response_zero = (r, Some e) ->
  fetch c = (Some r, Some e) /\
  fst (fetch c) <> None /\
  snd (fetch c) <> None.
Proof.
  intros Hget Hdec. unfold fetchData. rewrite Hget. cbn [Body]. by rewrite Hdec.
Qed.

(** C10: when the indicator is at least 165 and [everyone] returns an
    error, the tick drops the error and sends the alert all the same; its
    text is the empty mention followed by " Distanzunterricht, wooow". *)
Theorem everyone_error_discarded (w : World) (p : Process) (data : Response)
    (mention : string) (e : error) :
  fetch (client w) = (Some data, None) ->
  (165 <= indicator data)%Z ->
  fst (everyone (discord w) p) = Return (mention, Some e) ->
  last (emitted (run w) p)
  = Some (MessageSend (ChannelID (config p)) " Distanzunterricht, wooow") /\
  diagnostics (emitted (run w) p) = [].
Proof.
  intros Hfetch Hge Hev. rewrite everyone_run in Hev. cbn [fst] in Hev.
  injection Hev as Hev.
  rewrite (emitted_push (run w) p _ (f_equal snd (tick_fetch_ok _ _ w p _ Hfetch))).
  rewrite (everyone_in_error (ChannelID (config p)) (discord w) e)
    by (by rewrite Hev).
  unfold tick_events. replace (165 <=? indicator data)%Z with true by lia.
  split; reflexivity.
Qed.

End Claims.

(** ** Startup configuration *)

(** C6: started with [-timer "0 12 * * *" -token secret -channel 123],
    [init] returns with the three defaults in [config]: the schedule
    "0 18 * * *", an empty token and an empty channel.  The arguments are
    still unread on the command line; nothing supplied there reaches the
    configuration. *)
Theorem init_keeps_defaults :
  returns init (boot args_flags) = true /\
  os_Args started = ["-timer"; "0 12 * * *"; "-token"; "secret"; "-channel"; "123"] /\
  config started = {| Timer := "0 18 * * *"; Token := ""; ChannelID := "" |} /\
  cells started = ["0 18 * * *"; ""; ""].
Proof. by vm_compute. Qed.

(** ** Inputs that refute a sentence of the specification *)

(** C2, as worded, fails for a weekly incidence of -1.5: its integer part
    is -1, and no implementation of the conversion yields -1, since the
    indicator is a uint32. *)
Lemma negative_incidence_not_truncated :
  Data (response_with key f64_neg_1_5) !! key = Some (district_with f64_neg_1_5) /\
  float64_trunc (WeekIncidence (district_with f64_neg_1_5)) = Some (-1)%Z /\
  forall unrepresentable : float64 -> Z,
    incidence_of unrepresentable (response_with key f64_neg_1_5) <> (-1)%Z.
Proof.
  split; [apply lookup_singleton_eq|]. split; [reflexivity|].
  intros unrepresentable. unfold incidence_of.
  pose proof (uint32_of_float64_range unrepresentable
    (WeekIncidence (map_index (Data (response_with key f64_neg_1_5)) key))).
  lia.
Qed.

(** C3, as worded, fails when the guild has no role named "everyone" and
    the indicator is 165: the status message is sent and so is the alert,
    with an empty mention. *)
Lemma unresolved_mention_alert_sent :
  fetchData json_sample (client world_no_role)
  = (Some (response_with key f64_165_0), None) /\
  incidence_of unrepresentable_sample (response_with key f64_165_0) = 165%Z /\
  no_everyone_role (discord world_no_role) (ChannelID (config started)) /\
  sends (emitted (tick json_sample unrepresentable_sample world_no_role) started)
  = [ ("", "Inzidenzwert für den 07.04.2021: **165**");
      ("", " Distanzunterricht, wooow") ] /\
  alert_sent (emitted (tick json_sample unrepresentable_sample world_no_role) started).
Proof.
  assert (sends (emitted (tick json_sample unrepresentable_sample world_no_role) started)
          = [ ("", "Inzidenzwert für den 07.04.2021: **165**");
              ("", " Distanzunterricht, wooow") ]) as Hsends
    by (by vm_compute).
  split; [by vm_compute|]. split; [by vm_compute|]. split.
  - eexists _, _. split; [reflexivity|]. split; [reflexivity|].
    intros r Hr. cbn in Hr. apply list_elem_of_singleton in Hr. by subst r.
  - split; [exact Hsends|]. unfold alert_sent. rewrite Hsends.
    exists "", " Distanzunterricht, wooow". split.
    + apply list_elem_of_further, list_elem_of_here.
    + by exists "".
Qed.

(** ** The theorems at sample inputs *)

Lemma float64_samples :
  float64_trunc f64_164_9 = Some 164%Z /\ float64_round f64_164_9 = Some 165%Z /\
  float64_trunc f64_165_0 = Some 165%Z /\
  float64_trunc f64_200_7 = Some 200%Z /\ float64_trunc f64_50_2 = Some 50%Z /\
  forallb float64_valid
    [f64_164_9; f64_165_0; f64_200_7; f64_50_2; f64_neg_1_5; f64_2_pow_32] = true.
Proof. by vm_compute. Qed.

(** An indicator of 165 sends the alert. *)
Lemma alert_iff_threshold_witness :
  fetchData json_sample (client world_alert)
  = (Some (response_with key f64_165_0), None) /\
  alert_sent (emitted (tick json_sample unrepresentable_sample world_alert) started).
Proof.
  assert (fetchData json_sample (client world_alert)
          = (Some (response_with key f64_165_0), None)) as Hfetch by (by vm_compute).
  split; [exact Hfetch|].
  apply (alert_iff_threshold json_sample unrepresentable_sample
           world_alert started _ Hfetch).
  by vm_compute.
Defined.

(** A weekly incidence of 164.9 gives the indicator 164. *)
Lemma indicator_truncates_witness :
  incidence_of unrepresentable_sample (response_with key f64_164_9) = 164%Z.
Proof.
  apply (indicator_truncates unrepresentable_sample
           (response_with key f64_164_9) (district_with f64_164_9) 164).
  - apply lookup_singleton_eq.
  - reflexivity.
  - lia.
Defined.

(** No role "everyone" and an indicator of 165. *)
Lemma failed_mention_still_alerts_witness :
  sends (emitted (tick json_sample unrepresentable_sample world_no_role) started)
  = [ ("", status_text "07.04.2021" 165); ("", alert_suffix) ].
Proof.
  apply (failed_mention_still_alerts json_sample unrepresentable_sample
           world_no_role started (response_with key f64_165_0)).
  - by vm_compute.
  - by vm_compute.
  - right; right. eexists _, _. split; [reflexivity|]. split; [reflexivity|].
    intros r Hr. cbn in Hr. apply list_elem_of_singleton in Hr. by subst r.
Defined.

(** The endpoint cannot be reached. *)
Lemma fetch_error_tick_witness :
  diagnostics (emitted (tick json_sample unrepresentable_sample world_down) started)
  = ["could not fetch COVID data: dial tcp: connection refused" +:+ newline] /\
  sends (emitted (tick json_sample unrepresentable_sample world_down) started) = [] /\
  config (snd (tick json_sample unrepresentable_sample world_down started))
  = config started.
Proof.
  destruct (fetch_error_tick json_sample unrepresentable_sample world_down started
              None (errors_New "dial tcp: connection refused") eq_refl)
    as (_ & Hdiag & Hsends & Hconfig & _).
  split; [exact Hdiag|]. split; [exact Hsends | exact Hconfig].
Defined.

(** The response holds district 09677 only. *)
Lemma absent_key_zero_witness :
  emitted (tick json_sample unrepresentable_sample world_other_district) started
  = [MessageSend "" "Inzidenzwert für den 07.04.2021: **0**"].
Proof.
  refine (proj2 (proj2 (absent_key_zero json_sample unrepresentable_sample
    world_other_district started
    (response_with "09677" (S754_finite false 5277655813324800 (-44))) _ _))).
  - by vm_compute.
  - by vm_compute.
Defined.

(** The same body at noon with status 200 and in the evening with status
    503, after a failed tick and with one more role in the guild. *)
Lemma tick_deterministic_witness :
  message_texts (emitted (tick json_sample unrepresentable_sample
    (world_with 200 (body_text "200.7") [role_everyone] noon)) started)
  = message_texts (emitted (tick json_sample unrepresentable_sample
    (world_with 503 (body_text "200.7") [role_admin; role_everyone] evening))
    (snd (tick json_sample unrepresentable_sample world_down started))).
Proof.
  refine (proj2 (tick_deterministic json_sample unrepresentable_sample
    (world_with 200 (body_text "200.7") [role_everyone] noon)
    (world_with 503 (body_text "200.7") [role_admin; role_everyone] evening)
    started (snd (tick json_sample unrepresentable_sample world_down started))
    200 503 (list_byte_of_string (body_text "200.7")) _ _ _) _).
  - by vm_compute.
  - by vm_compute.
  - reflexivity.
  - by vm_compute.
Defined.

(** Status 500 with a JSON error body: the fetch succeeds, with an empty
    record. *)
Lemma fetchData_ignores_status_witness :
  fetchData json_sample (client_with 500 body_error) = (Some Response_zero, None) /\
  fetchData json_sample (client_with 200 body_error)
  = fetchData json_sample (client_with 500 body_error).
Proof.
  destruct (fetchData_ignores_status json_sample (client_with 500 body_error) 500
              (list_byte_of_string body_error) Response_zero)
    as [Hok Hsame].
  - by vm_compute.
  - by vm_compute.
  - split; [exact Hok|]. apply (Hsame (client_with 200 body_error) 200).
    by vm_compute.
Defined.

(** Status 502 with an HTML page as body. *)
Lemma fetchData_decode_error_witness :
  fetchData json_sample (client world_bad_gateway)
  = (Some Response_zero,
     Some (errors_New "invalid character '<' looking for beginning of value")).
Proof.
  refine (proj1 (fetchData_decode_error json_sample (client world_bad_gateway) 502
    (list_byte_of_string body_html) Response_zero
    (errors_New "invalid character '<' looking for beginning of value") _ _)).
  - by vm_compute.
  - by vm_compute.
Defined.

(** No role "everyone" and an indicator of 165. *)
Lemma everyone_error_discarded_witness :
  last (emitted (tick json_sample unrepresentable_sample world_no_role) started)
  = Some (MessageSend "" " Distanzunterricht, wooow").
Proof.
  refine (proj1 (everyone_error_discarded json_sample unrepresentable_sample
    world_no_role started (response_with key f64_165_0) ""
    (errors_New "could not find everyone role, what the fuck") _ _ _)).
  - by vm_compute.
  - by vm_compute.
  - by vm_compute.
Defined.

(** * Further properties of main.go *)

(** ** The role scan of everyone *)

Lemma Mention_nonempty (r : Role) : Mention r <> "".
Proof. discriminate. Qed.

Lemma everyone_roles_first (before after : list Role) (r : Role) :
  (forall r', r' ∈ before -> Role_Name r' <> "everyone") ->
  Role_Name r = "everyone" ->
  everyone_roles (before ++ r :: after) = (Mention r, None).
Proof.
  intros Hbefore Hr. induction before as [|b before IH]; cbn.
  - by rewrite Hr.
  - destruct (String.eqb_spec (Role_Name b) "everyone") as [E|_].
    + exfalso. apply (Hbefore b); [left | exact E].
    + apply IH. intros r' Hr'. apply Hbefore. by right.
Qed.

Lemma everyone_roles_found (roles : list Role) :
  snd (everyone_roles roles) = None <->
  exists r, r ∈ roles /\ Role_Name r = "everyone".
Proof.
  induction roles as [|b roles IH]; cbn.
  - split; [discriminate|]. intros (r & Hr & _). by apply elem_of_nil in Hr.
  - destruct (String.eqb_spec (Role_Name b) "everyone") as [E|E]; cbn.
    + split; [|done]. intros _. exists b. split; [left | exact E].
    + rewrite IH. split.
      * intros (r & Hr & Hn). exists r. split; [by right | exact Hn].
      * intros (r & Hr & Hn). apply elem_of_cons in Hr as [-> | Hr]; [done|].
        by exists r.
Qed.

Lemma everyone_roles_mention (roles : list Role) :
  snd (everyone_roles roles) = None -> fst (everyone_roles roles) <> "".
Proof.
  induction roles as [|b roles IH]; cbn; [discriminate|].
  destruct (String.eqb (Role_Name b) "everyone"); [|exact IH].
  intros _. apply Mention_nonempty.
Qed.

(** X1: when the channel and its guild resolve, [everyone] returns the
    mention [<@&ID>] of the first role named "everyone": roles with other
    names before it are skipped and whatever follows it is not looked at. *)
Theorem everyone_first_match (ch : string) (d : Session) (c : Channel) (g : Guild)
    (before after : list Role) (r : Role) :
  Session_Channel d ch = inl c ->
  Session_Guild d (GuildID c) = inl g ->
  Roles g = before ++ r :: after ->
  (forall r', r' ∈ before -> Role_Name r' <> "everyone") ->
  Role_Name r = "everyone" ->
  everyone_in ch d = ("<@&" +:+ Role_ID r +:+ ">", None).
Proof.
  intros Hc Hg Hroles Hbefore Hr. unfold everyone_in.
  rewrite Hc, Hg, Hroles. by rewrite everyone_roles_first.
Qed.

(** X2: when the channel and its guild resolve, [everyone] returns a nil
    error exactly when the guild has a role whose name is "everyone",
    compared byte for byte. *)
Theorem everyone_succeeds_iff (ch : string) (d : Session) (c : Channel) (g : Guild) :
  Session_Channel d ch = inl c ->
  Session_Guild d (GuildID c) = inl g ->
  (snd (everyone_in ch d) = None <->
   exists r, r ∈ Roles g /\ Role_Name r = "everyone").
Proof.
  intros Hc Hg. unfold everyone_in. rewrite Hc, Hg. apply everyone_roles_found.
Qed.

(** X3: [everyone] returns either a mention or an error, never both and
    never neither: its error is nil exactly when its string is not empty. *)
Theorem everyone_mention_xor_error (ch : string) (d : Session) :
  snd (everyone_in ch d) = None <-> fst (everyone_in ch d) <> "".
Proof.
  split.
  - unfold everyone_in.
    destruct (Session_Channel d ch) as [c|]; [|discriminate].
    destruct (Session_Guild d (GuildID c)) as [g|]; [|discriminate].
    apply everyone_roles_mention.
  - intros Hne. destruct (snd (everyone_in ch d)) as [e|] eqn:E; [|done].
    by apply everyone_in_error in E.
Qed.

Lemma everyone_first_match_witness :
  everyone_in "" (session_with [role_admin; role_everyone; role_admin])
  = ("<@&4711>", None).
Proof.
  apply (everyone_first_match "" (session_with [role_admin; role_everyone; role_admin])
           {| Channel_ID := ""; GuildID := "guild-1" |}
           {| Guild_ID := "guild-1"; Roles := [role_admin; role_everyone; role_admin] |}
           [role_admin] [role_admin] role_everyone); try reflexivity.
  intros r' Hr'. apply list_elem_of_singleton in Hr'. by subst r'.
Defined.

Lemma everyone_succeeds_iff_witness :
  snd (everyone_in "" (session_with [role_admin; role_everyone])) = None.
Proof.
  apply (everyone_succeeds_iff "" (session_with [role_admin; role_everyone])
           {| Channel_ID := ""; GuildID := "guild-1" |}
           {| Guild_ID := "guild-1"; Roles := [role_admin; role_everyone] |}
           eq_refl eq_refl).
  exists role_everyone. split; [|reflexivity].
  apply list_elem_of_further, list_elem_of_here.
Defined.

(** ** The fetcher, one tick and a schedule of ticks *)

Lemma push_nil (p : Process) : push [] p = p.
Proof. destruct p. unfold push; cbn. by rewrite app_nil_r. Qed.

Lemma diagnostics_app (es fs : list Event) :
  diagnostics (es ++ fs) = diagnostics es ++ diagnostics fs.
Proof. apply omap_app. Qed.

Section Schedule.

Variable json_Unmarshal : list byte -> Response -> Response * option error.
Variable unrepresentable : float64 -> Z.

Local Abbreviation fetch := (fetchData json_Unmarshal).
Local Abbreviation indicator := (incidence_of unrepresentable).
Local Abbreviation run := (tick json_Unmarshal unrepresentable).
Local Abbreviation schedule := (ticks json_Unmarshal unrepresentable).

Lemma ticks_run (ws : list World) (p : Process) :
  schedule ws p = (Return tt, push (emitted (schedule ws) p) p).
Proof.
  pose proof (ticks_frame json_Unmarshal unrepresentable ws p []) as H.
  by rewrite push_nil in H.
Qed.

(** The three shapes of what one tick adds. *)
Lemma tick_shape (w : World) (p : Process) :
  (exists e, snd (fetch (client w)) = Some e /\
     emitted (run w) p
     = [Stderr ("could not fetch COVID data: " +:+ Error e +:+ newline)]) \/
  (exists data, fetch (client w) = (Some data, None) /\
     emitted (run w) p
     = tick_events (ChannelID (config p)) (getCurrentTimestamp (time_Now w))
         (indicator data) (fst (everyone_in (ChannelID (config p)) (discord w)))).
Proof.
  destruct (fetch (client w)) as [[data|] [e|]] eqn:E.
  - left. exists e. split; [done|].
    exact (emitted_push (run w) p _ (f_equal snd (tick_fetch_error _ _ w p _ e E))).
  - right. exists data. split; [done|].
    exact (emitted_push (run w) p _ (f_equal snd (tick_fetch_ok _ _ w p _ E))).
  - left. exists e. split; [done|].
    exact (emitted_push (run w) p _ (f_equal snd (tick_fetch_error _ _ w p _ e E))).
  - by apply fetchData_not_nil_nil in E.
Qed.

Lemma tick_sends_addressed (w : World) (p : Process) :
  Forall (fun cs => fst cs = ChannelID (config p)) (sends (emitted (run w) p)).
Proof.
  destruct (tick_shape w p) as [(e & _ & ->) | (data & _ & ->)]; cbn.
  - constructor.
  - unfold tick_events. destruct (165 <=? indicator data)%Z; cbn;
      repeat constructor.
Qed.

Lemma ticks_sends_addressed (ws : list World) (p : Process) :
  Forall (fun cs => fst cs = ChannelID (config p)) (sends (emitted (schedule ws) p)).
Proof.
  induction ws as [|w ws IH].
  - unfold emitted. cbn. rewrite drop_all. constructor.
  - rewrite ticks_cons, sends_app. apply Forall_app. split; [|exact IH].
    apply tick_sends_addressed.
Qed.


(** X5: every tick returns, and what it adds is one of three things: a
    single diagnostic line carrying the message of the fetch error; the
    status message alone, when the indicator is below 165; or the status
    message followed by the alert.  A tick never writes a diagnostic and
    sends a message as well. *)
Theorem tick_outcomes (w : World) (p : Process) :
  returns (run w) p = true /\
  ((exists e, snd (fetch (client w)) = Some e /\
      emitted (run w) p
      = [Stderr ("could not fetch COVID data: " +:+ Error e +:+ newline)]) \/
   (exists data, fetch (client w) = (Some data, None) /\
      (indicator data < 165)%Z /\
      emitted (run w) p
      = [MessageSend (ChannelID (config p))
           (status_text (getCurrentTimestamp (time_Now w)) (indicator data))]) \/
   (exists data mention, fetch (client w) = (Some data, None) /\
      (165 <= indicator data)%Z /\
      emitted (run w) p
      = [MessageSend (ChannelID (config p))
           (status_text (getCurrentTimestamp (time_Now w)) (indicator data));
         MessageSend (ChannelID (config p)) (mention +:+ alert_suffix)])).
Proof.
  split; [apply tick_returns|].
  destruct (tick_shape w p) as [H | (data & Hfetch & Hev)]; [by left|].
  right. unfold tick_events in Hev.
  destruct (165 <=? indicator data)%Z eqn:Hcmp.
  - right. eexists data, _. split; [done|]. split; [lia | exact Hev].
  - left. exists data. split; [done|]. split; [lia | exact Hev].
Qed.

(** X6: a schedule of ticks returns (no tick panics) and leaves the
    configuration, the flags, the flag variables and the command line as
    they were; all it does to the process is append to its output. *)
Theorem ticks_keep_process (ws : list World) (p : Process) :
  returns (schedule ws) p = true /\
  config (snd (schedule ws p)) = config p /\
  CommandLine (snd (schedule ws p)) = CommandLine p /\
  cells (snd (schedule ws p)) = cells p /\
  os_Args (snd (schedule ws p)) = os_Args p /\
  output (snd (schedule ws p)) = output p ++ emitted (schedule ws) p.
Proof. unfold returns. by rewrite ticks_run. Qed.

(** X7: ticks do not influence one another: what a schedule adds is what
    its first part adds followed by what its second part adds when run from
    the same process. *)
Theorem ticks_app (ws1 ws2 : list World) (p : Process) :
  emitted (schedule (ws1 ++ ws2)) p
  = emitted (schedule ws1) p ++ emitted (schedule ws2) p.
Proof.
  induction ws1 as [|w ws1 IH].
  - cbn [app]. unfold emitted at 2. cbn. by rewrite drop_all.
  - change ((w :: ws1) ++ ws2) with (w :: (ws1 ++ ws2)).
    by rewrite !ticks_cons, IH, app_assoc.
Qed.

(** X8: every message of every tick of a schedule is addressed to the
    channel of the configuration the schedule started with. *)
Theorem ticks_messages_channel (ws : list World) (p : Process) (c s : string) :
  (c, s) ∈ sends (emitted (schedule ws) p) -> c = ChannelID (config p).
Proof.
  intros Hin.
  exact (proj1 (Forall_forall _ _) (ticks_sends_addressed ws p) (c, s) Hin).
Qed.

(** X9: a schedule of n ticks adds at least n and at most 2n events; each
    diagnostic stands for a tick that sent nothing, so the messages plus
    twice the diagnostics are at most 2n. *)
Theorem ticks_counts (ws : list World) (p : Process) :
  (length ws <= length (emitted (schedule ws) p) <= 2 * length ws)%nat /\
  (length (sends (emitted (schedule ws) p))
   + 2 * length (diagnostics (emitted (schedule ws) p)) <= 2 * length ws)%nat.
Proof.
  induction ws as [|w ws IH].
  - unfold emitted. cbn. rewrite drop_all. cbn. lia.
  - rewrite ticks_cons, sends_app, diagnostics_app, !length_app. cbn [length].
    destruct (tick_shape w p) as [(e & _ & ->) | (data & _ & ->)].
    + cbn. lia.
    + unfold tick_events. destruct (165 <=? indicator data)%Z; cbn; lia.
Qed.

(** X10: whatever the command line, every message of every schedule run
    after [init] is addressed to the empty channel identifier. *)
Theorem started_messages_channel (args : list string) (ws : list World)
    (c s : string) :
  (c, s) ∈ sends (emitted (schedule ws) (snd (init (boot args)))) -> c = "".
Proof.
  intros Hin.
  pose proof (proj1 (Forall_forall _ _)
                (ticks_sends_addressed ws (snd (init (boot args)))) (c, s) Hin) as H.
  cbn [fst] in H. rewrite H.
  by rewrite (proj1 (proj2 (init_ignores_args args))).
Qed.

End Schedule.

(** ** The timestamp and the status text *)

Lemma append_length (s t : string) :
  String.length (s +:+ t) = (String.length s + String.length t)%nat.
Proof.
  induction s as [|c s IH]; [done|].
  change (String c s +:+ t) with (String c (s +:+ t)). cbn. by rewrite IH.
Qed.

Lemma append_inv_head (s x y : string) : s +:+ x = s +:+ y -> x = y.
Proof.
  induction s as [|c s IH]; [done|].
  change (String c s +:+ x) with (String c (s +:+ x)).
  change (String c s +:+ y) with (String c (s +:+ y)).
  intros [= H]. by apply IH.
Qed.

Lemma append_inj_length (a b x y : string) :
  String.length a = String.length b -> a +:+ x = b +:+ y -> a = b /\ x = y.
Proof.
  revert b. induction a as [|c a IH]; intros [|c' b] Hlen H; try discriminate.
  - done.
  - change (String c a +:+ x) with (String c (a +:+ x)) in H.
    change (String c' b +:+ y) with (String c' (b +:+ y)) in H.
    injection H as -> H. injection Hlen as Hlen.
    destruct (IH b Hlen H) as [-> ->]. done.
Qed.

Lemma append_inv_tail (x y s : string) : x +:+ s = y +:+ s -> x = y.
Proof.
  intros H. apply (append_inj_length x y s s); [|exact H].
  apply (f_equal String.length) in H. rewrite !append_length in H. lia.
Qed.

Lemma to_int_not_nil (z : Z) :
  Z.to_int z <> Decimal.Pos Decimal.Nil /\ Z.to_int z <> Decimal.Neg Decimal.Nil.
Proof.
  pose proof (to_of (Z.to_int z)) as H. rewrite of_to in H.
  split; intros E; rewrite E in H; discriminate.
Qed.

(** The decimal form tells the number. *)
Lemma itoa_inj (a b : Z) : itoa a = itoa b -> a = b.
Proof.
  unfold itoa. intros H. apply to_int_inj.
  apply (f_equal NilZero.int_of_string) in H.
  destruct (to_int_not_nil a), (to_int_not_nil b).
  rewrite !NilZero.isi in H by done. by injection H.
Qed.

Lemma fits_two_digits : forallb (fits 2) (seqZ 0 100) = true.
Proof. by vm_compute. Qed.

Lemma fits_four_digits : forallb (fits 4) (seqZ 0 10000) = true.
Proof. by vm_compute. Qed.

Lemma fits_2 (x : Z) : (0 <= x < 100)%Z -> fits 2 x = true.
Proof.
  intros Hx. apply (proj1 (forallb_forall _ _) fits_two_digits).
  apply list_elem_of_In, elem_of_seqZ. lia.
Qed.

Lemma fits_4 (x : Z) : (0 <= x < 10000)%Z -> fits 4 x = true.
Proof.
  intros Hx. apply (proj1 (forallb_forall _ _) fits_four_digits).
  apply list_elem_of_In, elem_of_seqZ. lia.
Qed.

Lemma fits_spec (width : nat) (x : Z) :
  fits width x = true ->
  String.length (appendInt x width) = width /\
  digits_value (appendInt x width) 0 = Some x.
Proof.
  unfold fits. intros H. apply andb_prop in H as [Hlen Hval].
  split; [by apply Nat.eqb_eq | by apply bool_decide_eq_true in Hval].
Qed.

Lemma read_timestamp_fields (d1 d2 m1 m2 y1 y2 y3 y4 : ascii) :
  read_timestamp
    (String d1 (String d2 "") +:+ "." +:+ String m1 (String m2 "") +:+ "." +:+
     String y1 (String y2 (String y3 (String y4 ""))))
  = match digits_value (String d1 (String d2 "")) 0,
          digits_value (String m1 (String m2 "")) 0,
          digits_value (String y1 (String y2 (String y3 (String y4 "")))) 0 with
    | Some d, Some m, Some y => Some (y, m, d)
    | _, _, _ => None
    end.
Proof. reflexivity. Qed.

Lemma length_2_inv (s : string) :
  String.length s = 2%nat -> exists a b, s = String a (String b "").
Proof. destruct s as [|a [|b [|c s]]]; try discriminate. eauto. Qed.

Lemma length_4_inv (s : string) :
  String.length s = 4%nat ->
  exists a b c d, s = String a (String b (String c (String d ""))).
Proof.
  destruct s as [|a [|b [|c [|d [|e s]]]]]; try discriminate. intros _.
  by exists a, b, c, d.
Qed.

Lemma getCurrentTimestamp_length (t : Time) :
  calendar_date t -> String.length (getCurrentTimestamp t) = 10%nat.
Proof.
  intros (Hy & Hm & Hd). rewrite getCurrentTimestamp_date, !append_length.
  destruct (fits_spec 2 (Day t) (fits_2 (Day t) ltac:(lia))) as [-> _].
  destruct (fits_spec 2 (Month t) (fits_2 (Month t) ltac:(lia))) as [-> _].
  destruct (fits_spec 4 (Year t) (fits_4 (Year t) ltac:(lia))) as [-> _].
  reflexivity.
Qed.

Lemma read_getCurrentTimestamp (t : Time) :
  calendar_date t -> read_timestamp (getCurrentTimestamp t) = Some (date t).
Proof.
  intros (Hy & Hm & Hd). rewrite getCurrentTimestamp_date.
  destruct (fits_spec 2 (Day t) (fits_2 (Day t) ltac:(lia))) as [Ld Vd].
  destruct (fits_spec 2 (Month t) (fits_2 (Month t) ltac:(lia))) as [Lm Vm].
  destruct (fits_spec 4 (Year t) (fits_4 (Year t) ltac:(lia))) as [Ly Vy].
  destruct (length_2_inv _ Ld) as (d1 & d2 & Ed).
  destruct (length_2_inv _ Lm) as (m1 & m2 & Em).
  destruct (length_4_inv _ Ly) as (y1 & y2 & y3 & y4 & Ey).
  rewrite Ed, Em, Ey in *. rewrite read_timestamp_fields, Vd, Vm, Vy.
  reflexivity.
Qed.

Lemma getCurrentTimestamp_shape (t : Time) :
  calendar_date t ->
  exists d1 d2 m1 m2 y1 y2 y3 y4,
    getCurrentTimestamp t
    = String d1 (String d2 (String "."%char (String m1 (String m2
        (String "."%char (String y1 (String y2 (String y3 (String y4 ""))))))))).
Proof.
  intros (Hy & Hm & Hd). rewrite getCurrentTimestamp_date.
  destruct (fits_spec 2 (Day t) (fits_2 (Day t) ltac:(lia))) as [Ld _].
  destruct (fits_spec 2 (Month t) (fits_2 (Month t) ltac:(lia))) as [Lm _].
  destruct (fits_spec 4 (Year t) (fits_4 (Year t) ltac:(lia))) as [Ly _].
  destruct (length_2_inv _ Ld) as (d1 & d2 & ->).
  destruct (length_2_inv _ Lm) as (m1 & m2 & ->).
  destruct (length_4_inv _ Ly) as (y1 & y2 & y3 & y4 & ->).
  by exists d1, d2, m1, m2, y1, y2, y3, y4.
Qed.

(** X11: for a calendar date with a year of at most four digits the
    timestamp is ten bytes of the form DD.MM.YYYY, and reading it back gives
    the year, the month and the day it was made from. *)
Theorem timestamp_round_trip (t : Time) :
  calendar_date t ->
  String.length (getCurrentTimestamp t) = 10%nat /\
  String.get 2 (getCurrentTimestamp t) = Some "."%char /\
  String.get 5 (getCurrentTimestamp t) = Some "."%char /\
  read_timestamp (getCurrentTimestamp t) = Some (date t).
Proof.
  intros Ht. destruct (getCurrentTimestamp_shape t Ht)
    as (d1 & d2 & m1 & m2 & y1 & y2 & y3 & y4 & E).
  split; [by apply getCurrentTimestamp_length|].
  split; [by rewrite E|]. split; [by rewrite E|].
  by apply read_getCurrentTimestamp.
Qed.

(** X12: the status text tells the date and the indicator: two status
    texts made from calendar dates are equal only if the dates agree and the
    indicators are the same number. *)
Theorem status_text_determines (t1 t2 : Time) (a b : Z) :
  calendar_date t1 -> calendar_date t2 ->
  Sprintf "Inzidenzwert für den %s: **%d**"
    [ArgString (getCurrentTimestamp t1); ArgUint32 a]
  = Sprintf "Inzidenzwert für den %s: **%d**"
      [ArgString (getCurrentTimestamp t2); ArgUint32 b] ->
  date t1 = date t2 /\ a = b.
Proof.
  intros H1 H2 H. rewrite !Sprintf_status in H. unfold status_text in H.
  apply append_inv_head in H.
  apply append_inj_length in H as [Hts H];
    [|by rewrite !getCurrentTimestamp_length].
  split.
  - apply (f_equal read_timestamp) in Hts.
    rewrite !read_getCurrentTimestamp in Hts by done. congruence.
  - apply append_inv_head, append_inv_tail in H. by apply itoa_inj.
Qed.

(** ** The threshold and the reported incidence *)

(** Discarding the fraction does not move a float across a positive
    integer. *)
Lemma trunc_at_least (n : Z) (f : float64) (z : Z) :
  (0 < n)%Z -> float64_trunc f = Some z ->
  (n <=? z)%Z = float64_at_least n f.
Proof.
  intros Hn Hz. destruct f as [s| | |s m e]; try discriminate.
  - injection Hz as <-. reflexivity.
  - injection Hz as <-. unfold float64_at_least, trunc_finite.
    destruct (Z.ltb_spec e 0) as [He|He].
    + rewrite Z.shiftl_div_pow2 by lia.
      assert (0 < 2 ^ (- e))%Z as Hpos by (apply Z.pow_pos_nonneg; lia).
      pose proof (Z.div_mod (Z.pos m) (2 ^ (- e)) ltac:(lia)) as Hdm.
      pose proof (Z.mod_pos_bound (Z.pos m) (2 ^ (- e)) Hpos) as Hb.
      assert (0 <= Z.pos m / 2 ^ (- e))%Z as Hq by (apply Z.div_pos; lia).
      destruct s.
      * apply eq_true_iff_eq. rewrite !Z.leb_le. nia.
      * apply eq_true_iff_eq. rewrite !Z.leb_le. nia.
    + rewrite Z.shiftl_mul_pow2 by lia.
      destruct s; [|reflexivity].
      apply eq_true_iff_eq. rewrite !Z.leb_le.
      rewrite <- Pos2Z.opp_pos, Z.mul_opp_l. lia.
Qed.

Section Threshold.

Variable json_Unmarshal : list byte -> Response -> Response * option error.
Variable unrepresentable : float64 -> Z.

(** X13: when the integer part of the weekly incidence of district
    "09676" is a uint32, the tick sends two messages if the reported float
    itself is at least 165 and one message otherwise: comparing the
    truncated indicator with 165 decides as comparing the float does. *)
Theorem threshold_on_reported_incidence (w : World) (p : Process)
    (data : Response) (d : District) (z : Z) :
  fetchData json_Unmarshal (client w) = (Some data, None) ->
  Data data !! key = Some d ->
  float64_trunc (WeekIncidence d) = Some z ->
  (0 <= z < 2 ^ 32)%Z ->
  length (sends (emitted (tick json_Unmarshal unrepresentable w) p))
  = if float64_at_least 165 (WeekIncidence d) then 2%nat else 1%nat.
Proof.
  intros Hfetch Hd Hz Hrange.
  rewrite (emitted_push _ p _ (f_equal snd (tick_fetch_ok _ _ w p _ Hfetch))).
  unfold tick_events, incidence_of, map_index. rewrite Hd. cbn [default].
  rewrite (uint32_of_float64_exact _ _ z Hz Hrange).
  rewrite (trunc_at_least 165 _ z ltac:(lia) Hz).
  by destruct (float64_at_least 165 (WeekIncidence d)).
Qed.

End Threshold.

(** ** Startup *)

Lemma init_CommandLine (args : list string) :
  CommandLine (snd (init (boot args)))
  = <["channel" := {| Flag_Name := "channel";
                      Usage := "Specifies the Discord channel to use";
                      Value := 2%nat; DefValue := "" |}]>
    (<["token" := {| Flag_Name := "token";
                     Usage := "Specifies the Discord bot token";
                     Value := 1%nat; DefValue := "" |}]>
     (<["timer" := {| Flag_Name := "timer";
                      Usage := "Specifies the cron notation";
                      Value := 0%nat; DefValue := "0 18 * * *" |}]> ∅)).
Proof. reflexivity. Qed.

Lemma init_cells (args : list string) :
  cells (snd (init (boot args))) = ["0 18 * * *"; ""; ""].
Proof. reflexivity. Qed.

(** X14: for every command line, [init] returns with the three defaults in
    [config], writes nothing, leaves the command line as it was, and has
    registered exactly the flags "timer", "token" and "channel", each with a
    variable that still holds its default value. *)
Theorem init_any_command_line (args : list string) :
  returns init (boot args) = true /\
  config (snd (init (boot args)))
  = {| Timer := "0 18 * * *"; Token := ""; ChannelID := "" |} /\
  os_Args (snd (init (boot args))) = args /\
  output (snd (init (boot args))) = [] /\
  forall name : string,
    (is_Some (CommandLine (snd (init (boot args))) !! name) <->
     name ∈ ["timer"; "token"; "channel"]) /\
    forall f : Flag,
      CommandLine (snd (init (boot args))) !! name = Some f ->
      Flag_Name f = name /\
      cells (snd (init (boot args))) !! Value f = Some (DefValue f).
Proof.
  split; [reflexivity|]. split; [reflexivity|]. split; [reflexivity|].
  split; [reflexivity|]. intros name.
  rewrite init_CommandLine, init_cells. split.
  - rewrite !lookup_insert_is_Some, lookup_empty, !elem_of_cons, elem_of_nil.
    split.
    + intros [<- | [_ [<- | [_ [<- | [_ H]]]]]]; [tauto..|].
      by destruct H.
    + intros [-> | [-> | [-> | []]]].
      * right. split; [done|]. right. split; [done|]. by left.
      * right. split; [done|]. by left.
      * by left.
  - intros f Hf.
    apply lookup_insert_Some in Hf as [[<- <-] | [_ Hf]]; [done|].
    apply lookup_insert_Some in Hf as [[<- <-] | [_ Hf]]; [done|].
    apply lookup_insert_Some in Hf as [[<- <-] | [_ Hf]]; [done|].
    by rewrite lookup_empty in Hf.
Qed.

(** The four ways the startup can go. *)
Lemma main_cases (lib : Startup) (p : Process) :
  let authorization := "Bot " +:+ Token (config p) in
  let discord := {| made_from := authorization |} in
  let spec := Timer (config p) in
  (exists e, New_error lib authorization = Some e /\
     main lib p = ([Call_New authorization], Panic (Error e))) \/
  (exists e, New_error lib authorization = None /\
     Open_error lib discord = Some e /\
     main lib p = ([Call_New authorization; Call_Open], Panic (Error e))) \/
  (exists e, New_error lib authorization = None /\
     Open_error lib discord = None /\ AddFunc_error lib spec = Some e /\
     main lib p
     = ([Call_New authorization; Call_Open; Call_AddFunc spec], Panic (Error e))) \/
  (New_error lib authorization = None /\
     Open_error lib discord = None /\ AddFunc_error lib spec = None /\
     main lib p
     = ([Call_New authorization; Call_Open; Call_AddFunc spec; Call_Start],
        Return tt)).
Proof.
  intros authorization discord spec. unfold main, newDiscordSession.
  fold authorization. fold discord. fold spec.
  destruct (New_error lib authorization) as [e|] eqn:Hnew; [left; eauto|].
  destruct (Open_error lib discord) as [e|] eqn:Hopen; [right; left; eauto|].
  destruct (AddFunc_error lib spec) as [e|] eqn:Hadd.
  - right; right; left. eauto.
  - right; right; right. eauto.
Qed.

(** X15: [newDiscordSession] returns a nil session exactly when
    [discordgo.New] fails, and then it does not call [Open]; otherwise it
    returns the session made from "Bot " followed by the token, together
    with whatever [Open] returned, so a session that failed to open comes
    back non-nil with the error. *)
Theorem newDiscordSession_result (lib : Startup) (token : string) :
  (fst (snd (newDiscordSession lib token)) = None <->
   New_error lib ("Bot " +:+ token) <> None) /\
  (fst (snd (newDiscordSession lib token)) = None ->
   snd (snd (newDiscordSession lib token)) = New_error lib ("Bot " +:+ token) /\
   Call_Open ∉ fst (newDiscordSession lib token)) /\
  (forall discord : SessionPtr,
     fst (snd (newDiscordSession lib token)) = Some discord ->
     made_from discord = "Bot " +:+ token /\
     snd (snd (newDiscordSession lib token)) = Open_error lib discord /\
     fst (newDiscordSession lib token) = [Call_New ("Bot " +:+ token); Call_Open]).
Proof.
  unfold newDiscordSession.
  destruct (New_error lib ("Bot " +:+ token)) as [e|]; cbn [fst snd].
  - split; [done|]. split; [|discriminate]. intros _. split; [done|].
    intros Hin. apply list_elem_of_singleton in Hin. discriminate.
  - split; [split; [discriminate | done]|]. split; [discriminate|].
    by intros discord [= <-].
Qed.


(** X17: whatever the command line, [main] run after [init] asks
    discordgo for a session with the authorization "Bot " and an empty
    token, and the only schedule it ever registers is "0 18 * * *". *)
Theorem main_after_init (args : list string) (lib : Startup) :
  head (fst (main lib (snd (init (boot args))))) = Some (Call_New "Bot ") /\
  forall spec, Call_AddFunc spec ∈ fst (main lib (snd (init (boot args)))) ->
    spec = "0 18 * * *".
Proof.
  destruct (init_ignores_args args) as (_ & Hconfig & _).
  pose proof (main_cases lib (snd (init (boot args)))) as H.
  rewrite Hconfig in H. cbn [Token Timer] in H.
  change ("Bot " +:+ "") with "Bot " in H.
  destruct H as [(e & _ & ->) | [(e & _ & _ & ->) | [(e & _ & _ & _ & ->) | (_ & _ & _ & ->)]]];
    cbn [fst]; (split; [reflexivity|]); intros spec Hin;
    repeat (apply elem_of_cons in Hin as [Hin|Hin];
            [first [discriminate | by injection Hin as ->]|]);
    by apply elem_of_nil in Hin.
Qed.


(** ** The further properties at sample inputs *)

(** A failed tick, an alerting tick and a quiet one. *)
Lemma ticks_messages_channel_witness :
  (ChannelID (config started), "<@&4711> Distanzunterricht, wooow")
  ∈ sends (emitted (ticks json_sample unrepresentable_sample
                      [world_down; world_alert; world_quiet]) started) /\
  ChannelID (config started) = "".
Proof.
  assert ((ChannelID (config started), "<@&4711> Distanzunterricht, wooow")
          ∈ sends (emitted (ticks json_sample unrepresentable_sample
                              [world_down; world_alert; world_quiet]) started)) as Hin.
  { vm_compute. apply list_elem_of_further, list_elem_of_here. }
  split; [exact Hin|].
  exact (eq_trans (eq_sym (ticks_messages_channel json_sample unrepresentable_sample
           [world_down; world_alert; world_quiet] started _ _ Hin)) eq_refl).
Defined.

Lemma started_messages_channel_witness :
  ("", "Inzidenzwert für den 07.04.2021: **164**")
  ∈ sends (emitted (ticks json_sample unrepresentable_sample [world_quiet])
             (snd (init (boot args_flags)))) /\
  "" = "".
Proof.
  assert (("", "Inzidenzwert für den 07.04.2021: **164**")
          ∈ sends (emitted (ticks json_sample unrepresentable_sample [world_quiet])
                     (snd (init (boot args_flags))))) as Hin.
  { vm_compute. apply list_elem_of_here. }
  split; [exact Hin|].
  exact (started_messages_channel json_sample unrepresentable_sample
           args_flags [world_quiet] _ _ Hin).
Defined.

Lemma timestamp_round_trip_witness :
  getCurrentTimestamp evening = "07.04.2021" /\
  read_timestamp (getCurrentTimestamp evening) = Some (2021, 4, 7)%Z.
Proof.
  split; [reflexivity|].
  refine (proj2 (proj2 (proj2 (timestamp_round_trip evening _)))).
  unfold calendar_date. cbn. lia.
Defined.

Lemma status_text_determines_witness :
  date noon = date evening /\ 200%Z = 200%Z.
Proof.
  apply (status_text_determines noon evening 200 200).
  - unfold calendar_date. cbn. lia.
  - unfold calendar_date. cbn. lia.
  - reflexivity.
Defined.

Lemma threshold_on_reported_incidence_witness :
  float64_at_least 165 f64_164_9 = false /\
  length (sends (emitted (tick json_sample unrepresentable_sample world_quiet)
                   started)) = 1%nat.
Proof.
  split; [reflexivity|].
  apply (threshold_on_reported_incidence json_sample unrepresentable_sample
           world_quiet started (response_with key f64_164_9)
           (district_with f64_164_9) 164).
  - by vm_compute.
  - apply lookup_singleton_eq.
  - reflexivity.
  - lia.
Defined.
